(** * batchflow: CI workflows and the Research domain-update tutorial

    The repository fragment consists of two GitHub Actions workflows
    ([.github/workflows/pr.yml], holding the [PR] workflow and the [status]
    workflow) and the tutorial notebook
    [examples/tutorials/research/05_update_domain_in_research.ipynb].

    The workflows are embedded as records, job by job and step by step, and
    run by an interpreter of the step-status rules of the workflow language
    ([if: success()], [if: failure()], [if: always()], the implicit
    [success()] of a step without [if], [continue-on-error]).  The exit code
    of every step is an input of a run. *)

From Stdlib Require Import List String Ascii Bool Arith ZArith NArith Lia.
From Stdlib Require Import Decimal DecimalString DecimalFacts DecimalN DecimalPos.
Import ListNotations.
Open Scope string_scope.

(** ** Text helpers *)

Module Text.

(** The double-quote character, and the newline. *)
Definition dq : string := String (ascii_of_nat 34) EmptyString.
Definition nl : string := String (ascii_of_nat 10) EmptyString.

(** [q s] is [s] between double quotes, [esc s] is [s] between
    backslash-escaped double quotes, as in the Slack payloads. *)
Definition q (s : string) : string := dq ++ s ++ dq.
Definition esc (s : string) : string := "\" ++ dq ++ s ++ "\" ++ dq.

(** [contains needle s]: [needle] occurs in [s]. *)
Fixpoint contains (needle s : string) : bool :=
  prefix needle s ||
  match s with
  | EmptyString => false
  | String _ rest => contains needle rest
  end.

End Text.

(** ** The workflow language *)

Module Actions.

(** The status check of a step's [if:]. *)
Inductive status_check := always | success | failure.

Inductive action :=
| Uses (a : string)
| Run (script : list string).

Record step := {
  step_name : option string;
  step_if : option status_check;
  step_action : action;
  step_with : list (string * string);
  step_env : list (string * string);
  continue_on_error : bool
}.

Record job := {
  job_id : string;
  runs_on : string;
  container_image : option string;
  steps : list step
}.

Inductive trigger :=
| on_pull_request (branches : list string)
| on_push (paths_ignore : list string).

Inductive event :=
| PullRequest (base : string)
| Push (changed : list string).

(** *** Filter patterns: [*] stays within a path segment, [**] crosses [/]. *)

Inductive tok := Lit (c : ascii) | Star | DoubleStar.

Fixpoint tokens (p : string) : list tok :=
  match p with
  | EmptyString => []
  | String "*" (String "*" r) => DoubleStar :: tokens r
  | String "*" r => Star :: tokens r
  | String c r => Lit c :: tokens r
  end.

Fixpoint gmatch (p : list tok) (s : string) {struct p} : bool :=
  match p with
  | [] => match s with EmptyString => true | _ => false end
  | Lit c :: p' =>
      match s with
      | String c' s' => Ascii.eqb c c' && gmatch p' s'
      | EmptyString => false
      end
  | Star :: p' =>
      (fix skip (s : string) : bool :=
         gmatch p' s ||
         match s with
         | String c s' => negb (Ascii.eqb c "/") && skip s'
         | EmptyString => false
         end) s
  | DoubleStar :: p' =>
      (fix skip (s : string) : bool :=
         gmatch p' s ||
         match s with
         | String _ s' => skip s'
         | EmptyString => false
         end) s
  end.

Definition glob_match (pat s : string) : bool := gmatch (tokens pat) s.

Definition matches_any (pats : list string) (s : string) : bool :=
  existsb (fun p => glob_match p s) pats.

(** A [pull_request] trigger with [branches] fires when the base branch
    matches one of the patterns.  A [push] trigger with [paths-ignore] fires
    when at least one changed path matches none of the ignored patterns. *)
Definition triggered (t : trigger) (e : event) : bool :=
  match t, e with
  | on_pull_request branches, PullRequest base => matches_any branches base
  | on_push ignored, Push changed =>
      existsb (fun p => negb (matches_any ignored p)) changed
  | _, _ => false
  end.

(** *** Running the steps of a job *)

Inductive step_result := Skipped | Ran (exit_code : Z).

Inductive job_status := Succeeded | Failed.

(** Does the step run, given whether an earlier step has failed?  A step
    without [if:] has the implicit [success()]. *)
Definition guard (c : option status_check) (failed : bool) : bool :=
  match c with
  | Some always => true
  | Some failure => failed
  | Some success | None => negb failed
  end.

(** A step fails the job when it exits non-zero, unless it continues on
    error. *)
Definition fails (s : step) (code : Z) : bool :=
  negb (code =? 0)%Z && negb (continue_on_error s).

(** [run_steps exit i failed ss]: the steps [ss] are numbered from [i];
    [exit k] is the exit code step [k] produces when it is executed. *)
Fixpoint run_steps (exit : nat -> Z) (i : nat) (failed : bool) (ss : list step)
  : list step_result * bool :=
  match ss with
  | [] => ([], failed)
  | s :: rest =>
      if guard (step_if s) failed then
        let (rs, f) := run_steps exit (S i) (failed || fails s (exit i)) rest in
        (Ran (exit i) :: rs, f)
      else
        let (rs, f) := run_steps exit (S i) failed rest in
        (Skipped :: rs, f)
  end.

Definition run_job (exit : nat -> Z) (j : job) : list step_result * bool :=
  run_steps exit 0 false (steps j).

Definition results (exit : nat -> Z) (j : job) : list step_result :=
  fst (run_job exit j).

Definition status (exit : nat -> Z) (j : job) : job_status :=
  if snd (run_job exit j) then Failed else Succeeded.

(** The result of step [k] of the job. *)
Definition result_of (exit : nat -> Z) (j : job) (k : nat) : step_result :=
  nth k (results exit j) Skipped.

Definition executed (r : step_result) : bool :=
  match r with Ran _ => true | Skipped => false end.

Definition exits_nonzero (r : step_result) : bool :=
  match r with Ran c => negb (c =? 0)%Z | Skipped => false end.

End Actions.

(** ** The two workflows of [.github/workflows] *)

Module Workflows.
Import Text Actions.

Record workflow := {
  wf_name : string;
  wf_on : trigger;
  wf_jobs : list job
}.

(** A step with only a name and a script, the common case. *)
Definition run_step (name : string) (script : list string) : step :=
  {| step_name := Some name; step_if := None; step_action := Run script;
     step_with := []; step_env := []; continue_on_error := false |}.

Definition checkout : step :=
  {| step_name := None; step_if := None;
     step_action := Uses "actions/checkout@v1";
     step_with := []; step_env := []; continue_on_error := false |}.

(** *** Workflow [PR] *)

Definition branch_check_script : string :=
  "git rev-list --count HEAD..origin/master | grep -w " ++ q "0".

Definition pr_check : job :=
  {| job_id := "pr-check";
     runs_on := "ubuntu-latest";
     container_image := Some "analysiscenter1/ds-py3:cpu";
     steps :=
       [ checkout;
         run_step "Check if the branch is behind the master"
           [ branch_check_script ];
         run_step "Generate coverage report"
           [ "pip3 install -U pytest-cov";
             "pytest -m " ++ q "not slow" ++ " --cov=./ --cov-report=xml" ];
         run_step "Upload coverage to Codecov"
           [ "pip3 install -U codecov";
             "codecov -t ${{ secrets.CODECOV_TOKEN }}" ] ] |}.

(** The matrix of [test_requirements]. *)
Record cell := { os : string; python_version : string }.

Definition matrix_os : list string :=
  [ "ubuntu-latest"; "macos-latest"; "windows-latest" ].
Definition matrix_python_version : list string := [ "3.6"; "3.7" ].

Definition cells : list cell :=
  flat_map (fun o => map (fun p => {| os := o; python_version := p |})
                         matrix_python_version)
           matrix_os.

(** The job of one matrix cell: [${{ matrix.os }}] and
    [${{ matrix.python-version }}] are replaced by the cell's values. *)
Definition test_requirements (c : cell) : job :=
  {| job_id := "test_requirements";
     runs_on := os c;
     container_image := None;
     steps :=
       [ checkout;
         {| step_name :=
              Some ("Set up Python " ++ python_version c ++ " on " ++ os c);
            step_if := None;
            step_action := Uses "actions/setup-python@v1";
            step_with := [ ("python-version", python_version c) ];
            step_env := []; continue_on_error := false |};
         run_step "Install batchflow requirements"
           [ "pip install -r requirements.txt";
             "pip install pytest" ];
         run_step "Run 'import batchflow' in installed environemnt"
           [ "python -c 'import batchflow'" ];
         run_step "Run basic tests"
           [ "cd batchflow/tests";
             "pytest --disable-pytest-warnings -v dataset_test.py filesindex_test.py datasetindex_test.py" ] ] |}.

Definition pr_workflow : workflow :=
  {| wf_name := "PR";
     wf_on := on_pull_request [ "master" ];
     wf_jobs := pr_check :: map test_requirements cells |}.

(** *** Workflow [status] *)

Definition slack_args (color : string) : string :=
  "{" ++ esc "channel" ++ ": " ++ esc "#commits" ++ ", "
      ++ esc "attachments" ++ ": [{" ++ esc "color" ++ ": " ++ esc color
      ++ ", " ++ esc "text" ++ ": \" ++ dq
      ++ "<${{ github.event.commits[0].url }}|${{ github.repository }}: *${{ github.event.commits[0].message }}*> by ${{ github.event.commits[0].author.name }}\n<${{ github.event.commits[0].url }}/checks|Workflow ${{ github.workflow }}>: `${{ job.status }}`\"
      ++ dq ++ "}]}".

Definition slack_notification (c : status_check) (color : string) : step :=
  {| step_name := Some "Slack notification";
     step_if := Some c;
     step_action := Uses "pullreminders/slack-action@master";
     step_with := [ ("args", slack_args color) ];
     step_env := [ ("SLACK_BOT_TOKEN", "${{ secrets.SLACK_BOT_TOKEN }}") ];
     continue_on_error := false |}.

Definition lint_test : job :=
  {| job_id := "lint-test";
     runs_on := "ubuntu-latest";
     container_image := Some "analysiscenter1/ds-py3:cpu";
     steps :=
       [ {| step_name := None; step_if := None;
            step_action := Uses "actions/checkout@v1";
            step_with := [ ("fetch-depth", "1") ];
            step_env := []; continue_on_error := false |};
         run_step "Update pylint" [ "pip3 install -U pylint" ];
         run_step "Check pylint" [ "pylint -rn --rcfile pylintrc batchflow" ];
         {| step_name := Some "Run tests"; step_if := Some always;
            step_action :=
              Run [ "pytest -m " ++ q "not slow" ++ " --disable-pytest-warnings -v" ];
            step_with := []; step_env := []; continue_on_error := false |};
         slack_notification success "good";
         slack_notification failure "danger" ] |}.

Definition status_workflow : workflow :=
  {| wf_name := "status";
     wf_on := on_push [ "docs/**" ];
     wf_jobs := [ lint_test ] |}.

(** *** Looking at what a step runs *)

(** The first word of a command line. *)
Fixpoint first_word (s : string) : string :=
  match s with
  | EmptyString => EmptyString
  | String c r => if Ascii.eqb c " " then EmptyString else String c (first_word r)
  end.

(** The step has a command line that invokes the program [prog]. *)
Definition invokes (prog : string) (s : step) : bool :=
  match step_action s with
  | Run script => existsb (fun l => String.eqb (first_word l) prog) script
  | Uses _ => false
  end.

(** The step mentions [word] anywhere: in its name, its action, its script
    or the values it passes. *)
Definition mentions (word : string) (s : step) : bool :=
  match step_name s with Some n => contains word n | None => false end
  || match step_action s with
     | Run script => existsb (contains word) script
     | Uses a => contains word a
     end
  || existsb (fun kv => contains word (snd kv)) (step_with s)
  || existsb (fun kv => contains word (snd kv)) (step_env s).

Definition all_steps (w : workflow) : list step := flat_map steps (wf_jobs w).

(** The steps a given event sets off: those of the workflow when its trigger
    fires, none otherwise. *)
Definition steps_on (w : workflow) (e : event) : list step :=
  if triggered (wf_on w) e then all_steps w else [].

(** The workflows of the repository, and the steps an event sets off in
    all of them. *)
Definition workflows : list workflow := [ pr_workflow; status_workflow ].

Definition triggered_steps (e : event) : list step :=
  flat_map (fun w => steps_on w e) workflows.

(** Positions of the steps within their jobs. *)
Definition branch_check_ix : nat := 1.
Definition import_ix : nat := 3.
Definition basic_tests_ix : nat := 4.
Definition pylint_ix : nat := 2.
Definition run_tests_ix : nat := 3.
Definition slack_good_ix : nat := 4.
Definition slack_danger_ix : nat := 5.

End Workflows.

(** ** The shell pipeline of the branch check *)

Module Shell.
Import Text.

(** Word constituents of [grep -w]: letters, digits and the underscore. *)
Definition word_char (c : ascii) : bool :=
  let n := nat_of_ascii c in
  ((48 <=? n)%nat && (n <=? 57)%nat) || ((65 <=? n)%nat && (n <=? 90)%nat)
  || ((97 <=? n)%nat && (n <=? 122)%nat) || (n =? 95)%nat.

(** A neighbour that lets a word end: the edge of the line or a character
    that is no word constituent. *)
Definition boundary (c : option ascii) : bool :=
  match c with
  | None => true
  | Some c => negb (word_char c)
  end.

Definition head (s : string) : option ascii :=
  match s with
  | EmptyString => None
  | String c _ => Some c
  end.

(** [strip_prefix p s] is what follows [p] at the start of [s]. *)
Fixpoint strip_prefix (p s : string) : option string :=
  match p, s with
  | EmptyString, _ => Some s
  | String a p', String b s' => if Ascii.eqb a b then strip_prefix p' s' else None
  | String _ _, EmptyString => None
  end.

(** [grep -w] with a literal pattern on one line: some occurrence of the
    pattern has a boundary on both sides.  [prev] is the character before the
    current position. *)
Fixpoint word_match_from (prev : option ascii) (pat line : string) : bool :=
  (boundary prev &&
   match strip_prefix pat line with
   | Some rest => boundary (head rest)
   | None => false
   end)
  || match line with
     | EmptyString => false
     | String c rest => word_match_from (Some c) pat rest
     end.

Definition word_match (pat line : string) : bool := word_match_from None pat line.

(** The lines of a text; a final newline ends the last line. *)
Fixpoint lines (s : string) : list string :=
  match s with
  | EmptyString => []
  | String c r =>
      if Ascii.eqb c (ascii_of_nat 10) then EmptyString :: lines r
      else match lines r with
           | [] => [ String c EmptyString ]
           | l :: ls => String c l :: ls
           end
  end.

Definition unlines (ls : list string) : string :=
  fold_right (fun l acc => l ++ nl ++ acc) EmptyString ls.

Inductive command :=
| git_rev_list_count (range : string)
| grep_w (pattern : string).

Definition render (c : command) : string :=
  match c with
  | git_rev_list_count range => "git rev-list --count " ++ range
  | grep_w pattern => "grep -w " ++ q pattern
  end.

Fixpoint render_pipeline (cs : list command) : string :=
  match cs with
  | [] => EmptyString
  | [ c ] => render c
  | c :: rest => render c ++ " | " ++ render_pipeline rest
  end.

Definition decimal (n : N) : string := NilEmpty.string_of_uint (N.to_uint n).

(** One command: its output and its exit status.  [count range] is the number
    of commits the repository has in [range].  [grep] prints the selected
    lines and exits 0 when there is one, 1 when there is none. *)
Definition exec (count : string -> N) (c : command) (stdin : string) : string * Z :=
  match c with
  | git_rev_list_count range => (decimal (count range) ++ nl, 0%Z)
  | grep_w pattern =>
      let sel := filter (word_match pattern) (lines stdin) in
      (unlines sel, match sel with [] => 1%Z | _ => 0%Z end)
  end.

(** A pipeline feeds each output to the next command; its status is the
    status of the last command. *)
Fixpoint exec_pipeline (count : string -> N) (cs : list command)
                       (stdin : string) (st : Z) : string * Z :=
  match cs with
  | [] => (stdin, st)
  | c :: rest =>
      let (out, st') := exec count c stdin in
      exec_pipeline count rest out st'
  end.

Definition branch_check : list command :=
  [ git_rev_list_count "HEAD..origin/master"; grep_w "0" ].

(** The exit code of the branch-check step. *)
Definition branch_check_exit (count : string -> N) : Z :=
  snd (exec_pipeline count branch_check EmptyString 0%Z).

End Shell.

(** ** The Research subsystem of the tutorial notebook

    The notebook imports [Research], [Option] and the result loader from
    [batchflow.research]; that package is not part of the fragment.  The
    definitions below follow the spec and the notebook's text. *)

Module Research.
Local Open Scope list_scope.

(** Candidate values: a model class, by name, or a number. *)
Inductive value := VName (s : string) | VNum (z : Z).

(** Modelled from the spec: class [Option] of [batchflow.research] is
    missing; "an option pairs a name with a sequence of candidate values". *)
Record Option := { opt_name : string; opt_values : list value }.

(** A configuration gives one value to each option name. *)
Definition Config := list (string * value).

(** Modelled from the spec: class [Domain] and the [*] of options are
    missing; "a domain is a cross-product (Cartesian product, denoted by
    multiplication in the notebook's API) of options".  A domain is kept as
    the sequence of its factors. *)
Definition Domain := list Option.

Definition option_mul (a b : Option) : Domain := [ a; b ].
Definition domain_mul (d e : Domain) : Domain := d ++ e.

(** Modelled from the spec: the iteration of a domain is missing; the domain
    "enumerat[es] candidate values, used to drive one configuration per
    pipeline run".  The first factor varies slowest. *)
Fixpoint configs (d : Domain) : list Config :=
  match d with
  | [] => [ [] ]
  | o :: rest =>
      flat_map (fun v => map (fun c => (opt_name o, v) :: c) (configs rest))
               (opt_values o)
  end.

Section Loop.

(** What the pipelines measure on a configuration. *)
Variable Metric : Type.
Variable execute : Config -> Metric.

(** Modelled from the spec: the results table is missing; "a research result
    is a row-oriented table keyed by configuration identity plus an update
    counter". *)
Record Row := {
  row_config : Config;
  row_update : nat;
  row_metric : Metric
}.

(** Modelled from the spec: the [each] argument of [Research.update_domain]
    is missing; the callback is "invoked on a configurable cadence", and
    with [each='last'] it "will be applied when current domain will be
    exhausted". *)
Inductive cadence := last | every (k : nat).

(** The arguments of [Research.update_domain]. *)
Record Update := {
  update_fn : list Row -> option Domain;
  each : cadence;
  n_updates : nat
}.

Record research := {
  init_domain : Domain;
  update_domain : option Update
}.

(** The state of a run.  [domains] and [calls] record the history: the
    domains installed so far, and the answers of the callback. *)
Record state := {
  pending : list Config;
  results : list Row;
  updates : nat;
  since : nat;
  active : bool;
  domains : list Domain;
  calls : list (option Domain)
}.

Definition init (r : research) : state :=
  {| pending := configs (init_domain r); results := []; updates := 0;
     since := 0; active := true; domains := [ init_domain r ]; calls := [] |}.

Definition exhausted (s : state) : bool :=
  match pending s with [] => true | _ => false end.

(** Is the callback to be invoked now? *)
Definition due (u : Update) (s : state) : bool :=
  active s && (updates s <? n_updates u)%nat &&
  match each u with
  | last => exhausted s
  | every k => (0 <? k)%nat && (k <=? since s)%nat
  end.

(** Modelled from the spec: the loop of [Research.run] is missing.  The
    callback "inspects accumulated results and may produce a replacement
    domain or signal termination"; "updates will be stopped after
    [n_updates] or when update function will return [None]"; a row records
    "the number of updates before we get current config". *)
Definition invoke (u : Update) (s : state) : state :=
  match update_fn u (results s) with
  | Some d =>
      {| pending := configs d; results := results s; updates := S (updates s);
         since := 0; active := true; domains := domains s ++ [ d ];
         calls := calls s ++ [ Some d ] |}
  | None =>
      {| pending := pending s; results := results s; updates := updates s;
         since := 0; active := false; domains := domains s;
         calls := calls s ++ [ None ] |}
  end.

Definition run_config (s : state) (c : Config) (rest : list Config) : state :=
  {| pending := rest;
     results := results s ++
       [ {| row_config := c; row_update := updates s; row_metric := execute c |} ];
     updates := updates s; since := S (since s); active := active s;
     domains := domains s; calls := calls s |}.

Definition is_due (r : research) (s : state) : option Update :=
  match update_domain r with
  | Some u => if due u s then Some u else None
  | None => None
  end.

(** One step of the loop; [None] when the run is over. *)
Definition step (r : research) (s : state) : option state :=
  match is_due r s with
  | Some u => Some (invoke u s)
  | None =>
      match pending s with
      | c :: rest => Some (run_config s c rest)
      | [] => None
      end
  end.

Fixpoint run (r : research) (fuel : nat) (s : state) : option state :=
  match step r s with
  | None => Some s
  | Some s' =>
      match fuel with
      | O => None
      | S fuel' => run r fuel' s'
      end
  end.

(** Modelled from the spec: [load_results] is missing; rows are selected by
    the value of their update counter ([update=1] in the notebook). *)
Definition load_results (update : option nat) (rows : list Row) : list Row :=
  match update with
  | None => rows
  | Some k => filter (fun row => (row_update row =? k)%nat) rows
  end.

(** The upper bound [n_updates] of a research, 0 without a callback. *)
Definition max_updates (r : research) : nat :=
  match update_domain r with
  | Some u => n_updates u
  | None => 0
  end.

(** The rows of the configurations [cs] when run after [k] updates. *)
Definition tagged (k : nat) (cs : list Config) : list Row :=
  map (fun c => {| row_config := c; row_update := k; row_metric := execute c |}) cs.

(** The table of a run that has taken the configurations [segs], one
    segment per installed domain, the first segment after [k] updates. *)
Fixpoint rows_of (k : nat) (segs : list (list Config)) : list Row :=
  match segs with
  | [] => []
  | cs :: rest => tagged k cs ++ rows_of (S k) rest
  end.

(** [cs] are configurations of [d], from the first on and in order. *)
Definition prefix_of (cs : list Config) (d : Domain) : Prop :=
  exists rest, configs d = cs ++ rest.

(** The domain is replaced only once exhausted: there is no callback, or
    its cadence is [last]. *)
Definition until_exhausted (r : research) : Prop :=
  match update_domain r with
  | Some u => each u = last
  | None => True
  end.

(** The trace of a run: [past] are the configurations taken from the
    domains that have been replaced, [cur] those taken so far from the
    current one; the table holds their rows, segment by segment. *)
Definition traced (r : research) (s : state)
           (past : list (list Config)) (cur : list Config) : Prop :=
  results s = rows_of 0 (past ++ [ cur ]) /\
  exists ds d,
    domains s = ds ++ [ d ] /\
    List.length ds = updates s /\
    Forall2 prefix_of past ds /\
    configs d = cur ++ pending s /\
    (until_exhausted r -> past = map configs ds).

(** The updates still allowed in a state: the measure of the loop, together
    with the number of pending configurations. *)
Definition budget (r : research) (s : state) : nat :=
  if active s then max_updates r - updates s else 0.

(** What the history of a run records about its state: the counter counts
    the domains installed after the first; the callback's answers are these
    domains, followed by [None] once it has declined; pending configurations
    come from the current domain; a row's counter is the position, in the
    history, of the domain its configuration comes from. *)
Record consistent (r : research) (s : state) : Prop := {
  updates_bounded : updates s <= max_updates r;
  declined_early : active s = false -> updates s < max_updates r;
  domains_counted : List.length (domains s) = S (updates s);
  calls_logged :
    calls s = map Some (tl (domains s)) ++ (if active s then [] else [ None ]);
  pending_current :
    exists d, nth_error (domains s) (updates s) = Some d /\
              incl (pending s) (configs d);
  rows_tagged :
    forall row, In row (results s) ->
      exists d, nth_error (domains s) (row_update row) = Some d /\
                In (row_config row) (configs d)
}.

End Loop.

Arguments row_config {Metric} _.
Arguments row_update {Metric} _.
Arguments row_metric {Metric} _.
Arguments update_fn {Metric} _ _.
Arguments each {Metric} _.
Arguments n_updates {Metric} _.
Arguments init_domain {Metric} _.
Arguments update_domain {Metric} _.
Arguments pending {Metric} _.
Arguments results {Metric} _.
Arguments updates {Metric} _.
Arguments since {Metric} _.
Arguments active {Metric} _.
Arguments domains {Metric} _.
Arguments calls {Metric} _.
Arguments init {Metric} _.
Arguments step {Metric} _ _ _.
Arguments run {Metric} _ _ _ _.
Arguments load_results {Metric} _ _.
Arguments max_updates {Metric} _.
Arguments budget {Metric} _ _.
Arguments tagged {Metric} _ _ _.
Arguments rows_of {Metric} _ _ _.
Arguments until_exhausted {Metric} _.
Arguments traced {Metric} _ _ _ _ _.
Arguments consistent {Metric} _ _.

(** *** The notebook's first domain *)

Definition tutorial_domain : Domain :=
  option_mul {| opt_name := "model";
                opt_values := [ VName "VGG7"; VName "VGG16"; VName "ResNet18" ] |}
             {| opt_name := "n_epochs"; opt_values := [ VNum 1 ] |}.

End Research.

(** ** The notebook's [update_domain]

    [update_domain(results)] reads two columns of the frame it is given:
    [results['accuracy'].idxmax()] is the index label of the first row of
    highest accuracy, and [results.iloc[...]] takes that label as a
    position.  A row of the frame is kept with its label, an integer as
    [iloc] requires, and the two columns; an accuracy is only compared, and
    an integer stands for it. *)

Module Notebook.
Import Research.
Local Open Scope list_scope.
Local Open Scope Z_scope.

Record frame_row := { label : Z; model : value; accuracy : Z }.

Definition DataFrame := list frame_row.

Inductive error := ValueError | IndexError.

Inductive outcome := Returned (d : Domain) | Raised (e : error).

(** The first row of highest accuracy. *)
Fixpoint first_max (results : DataFrame) : option frame_row :=
  match results with
  | [] => None
  | row :: rest =>
      match first_max rest with
      | Some best => if accuracy best <=? accuracy row then Some row else Some best
      | None => Some row
      end
  end.

(** [results['accuracy'].idxmax()]: the label of that row; nothing on an
    empty frame, where pandas raises [ValueError]. *)
Definition idxmax (results : DataFrame) : option Z :=
  option_map label (first_max results).

(** [results.iloc[i]]: the row at position [i], counted from the end when
    [i] is negative; nothing out of bounds, where pandas raises
    [IndexError]. *)
Definition iloc (results : DataFrame) (i : Z) : option frame_row :=
  let n := Z.of_nat (List.length results) in
  if (0 <=? i) && (i <? n) then nth_error results (Z.to_nat i)
  else if (- n <=? i) && (i <? 0) then nth_error results (Z.to_nat (n + i))
  else None.

(** The domain of one model with [n_epochs] 2. *)
Definition retrain (best_model : value) : Domain :=
  option_mul {| opt_name := "model"; opt_values := [ best_model ] |}
             {| opt_name := "n_epochs"; opt_values := [ VNum 2 ] |}.

Definition update_domain (results : DataFrame) : outcome :=
  match idxmax results with
  | None => Raised ValueError
  | Some i =>
      match iloc results i with
      | None => Raised IndexError
      | Some row => Returned (retrain (model row))
      end
  end.

End Notebook.

(** ** Jobs whose steps all have the default guard *)

Module Runs.
Import Actions.

(** A step without [if:] and without [continue-on-error]. *)
Definition plain (s : step) : Prop :=
  step_if s = None /\ continue_on_error s = false.

(** The steps numbered [i], ..., [i + n - 1] all exit with 0. *)
Definition zero_from (exit : nat -> Z) (i n : nat) : bool :=
  forallb (fun m => (exit m =? 0)%Z) (seq i n).

(** What a step of a job of plain steps does: it runs when all the steps
    before it have exited with 0. *)
Definition fail_fast (exit : nat -> Z) (k : nat) : step_result :=
  if zero_from exit 0 k then Ran (exit k) else Skipped.

End Runs.

(** * Properties *)

(** ** Running steps: general facts *)

Section RunSteps.
Import Actions.
Variable exit : nat -> Z.

Lemma run_steps_sticky (ss : list step) (i : nat) :
  snd (run_steps exit i true ss) = true.
Proof.
  revert i; induction ss as [|s ss IH]; intro i; simpl; [reflexivity|].
  destruct (guard (step_if s) true); simpl.
  - specialize (IH (S i)). destruct (run_steps exit (S i) true ss); exact IH.
  - specialize (IH (S i)). destruct (run_steps exit (S i) true ss); exact IH.
Qed.

Lemma run_steps_length (ss : list step) (i : nat) (failed : bool) :
  List.length (fst (run_steps exit i failed ss)) = List.length ss.
Proof.
  revert i failed; induction ss as [|s ss IH]; intros i failed; simpl; [reflexivity|].
  destruct (guard (step_if s) failed).
  - specialize (IH (S i) (failed || fails s (exit i))).
    destruct (run_steps exit (S i) _ ss); simpl in *; congruence.
  - specialize (IH (S i) failed).
    destruct (run_steps exit (S i) _ ss); simpl in *; congruence.
Qed.

(** A step that exits non-zero and does not continue on error fails the
    job, wherever it stands. *)
Lemma nonzero_exit_fails (ss : list step) :
  forall (i : nat) (failed : bool) (k : nat) (s : step),
    nth_error ss k = Some s ->
    continue_on_error s = false ->
    exits_nonzero (nth k (fst (run_steps exit i failed ss)) Skipped) = true ->
    snd (run_steps exit i failed ss) = true.
Proof.
  induction ss as [|s0 ss IH]; intros i failed k s Hk Hc Hnz.
  - destruct k; discriminate.
  - simpl in *. destruct (guard (step_if s0) failed).
    + destruct k as [|k].
      * injection Hk as ->.
        assert (Hf : fails s (exit i) = true).
        { unfold fails. rewrite Hc.
          destruct (run_steps exit (S i) _ ss); simpl in Hnz.
          rewrite Hnz; reflexivity. }
        rewrite Hf, orb_true_r.
        pose proof (run_steps_sticky ss (S i)) as St.
        destruct (run_steps exit (S i) true ss); exact St.
      * specialize (IH (S i) (failed || fails s0 (exit i)) k s Hk Hc).
        destruct (run_steps exit (S i) _ ss); simpl in *. auto.
    + destruct k as [|k].
      * destruct (run_steps exit (S i) failed ss); discriminate.
      * specialize (IH (S i) failed k s Hk Hc).
        destruct (run_steps exit (S i) _ ss); simpl in *. auto.
Qed.

(** In a job that succeeds, every step but those guarded by [failure()] has
    run, and has exited with 0 unless it continues on error. *)
Lemma success_ran_all (ss : list step) :
  forall (i : nat) (failed : bool) (k : nat) (s : step),
    snd (run_steps exit i failed ss) = false ->
    nth_error ss k = Some s ->
    step_if s <> Some failure ->
    nth k (fst (run_steps exit i failed ss)) Skipped = Ran (exit (i + k)) /\
    (continue_on_error s = false -> exit (i + k) = 0%Z).
Proof.
  induction ss as [|s0 ss IH]; intros i failed k s Hok Hk Hg.
  - destruct k; discriminate.
  - assert (Hfl : failed = false).
    { destruct failed; [|reflexivity].
      rewrite run_steps_sticky in Hok; discriminate. }
    subst failed. simpl in *.
    destruct (guard (step_if s0) false) eqn:G.
    + destruct (fails s0 (exit i)) eqn:F.
      { pose proof (run_steps_sticky ss (S i)) as St.
        destruct (run_steps exit (S i) true ss); simpl in *; congruence. }
      destruct k as [|k].
      * injection Hk as ->.
        destruct (run_steps exit (S i) false ss); simpl.
        rewrite Nat.add_0_r. split; [reflexivity|].
        intro Hc. unfold fails in F. rewrite Hc in F.
        destruct (exit i =? 0)%Z eqn:E; [apply Z.eqb_eq, E | discriminate].
      * specialize (IH (S i) false k s).
        destruct (run_steps exit (S i) false ss); simpl in *.
        rewrite <- Nat.add_succ_comm. auto.
    + destruct k as [|k].
      * injection Hk as ->.
        destruct (step_if s) as [[]|]; simpl in G; try discriminate.
        congruence.
      * specialize (IH (S i) false k s).
        destruct (run_steps exit (S i) false ss); simpl in *.
        rewrite <- Nat.add_succ_comm. auto.
Qed.

End RunSteps.

(** ** The branch check: decimal output against [grep -w] *)

Section BranchCheck.
Import Text Shell.

Lemma lines_of_number (d : uint) :
  lines (NilEmpty.string_of_uint d ++ nl) = [ NilEmpty.string_of_uint d ].
Proof.
  induction d; simpl; try rewrite IHd; reflexivity.
Qed.

(** After a digit, no [0] of a number starts a word. *)
Lemma no_word_after_digit (d : uint) :
  forall c, word_char c = true ->
    word_match_from (Some c) "0" (NilEmpty.string_of_uint d) = false.
Proof.
  induction d; intros c Hc; simpl; rewrite Hc; simpl;
    try reflexivity; apply IHd; reflexivity.
Qed.

(** Among the numerals, [grep -w 0] selects the numeral [0] only. *)
Lemma word_match_zero (d : uint) :
  word_match "0" (NilEmpty.string_of_uint d) = true <-> d = D0 Nil.
Proof.
  unfold word_match.
  destruct d; simpl;
    try (rewrite no_word_after_digit by reflexivity; split; discriminate).
  - split; discriminate.
  - rewrite no_word_after_digit by reflexivity. rewrite orb_false_r.
    destruct d; simpl; split; intro H; try discriminate; reflexivity.
Qed.

Lemma to_uint_zero (n : N) : N.to_uint n = D0 Nil <-> n = 0%N.
Proof.
  destruct n as [|p]; simpl.
  - split; reflexivity.
  - split; [|discriminate].
    intro H. exfalso. exact (DecimalPos.Unsigned.to_uint_nonzero p H).
Qed.

(** The branch check exits with 0 when no commit of [origin/master] is
    missing from [HEAD], and with 1 otherwise. *)
Lemma branch_check_exit_spec (count : string -> N) :
  branch_check_exit count =
  if (count "HEAD..origin/master" =? 0)%N then 0%Z else 1%Z.
Proof.
  unfold branch_check_exit, branch_check. simpl exec_pipeline.
  unfold decimal. rewrite lines_of_number. simpl filter.
  destruct (count "HEAD..origin/master" =? 0)%N eqn:E.
  - apply N.eqb_eq in E. rewrite E. reflexivity.
  - apply N.eqb_neq in E.
    destruct (word_match "0" (NilEmpty.string_of_uint (N.to_uint (count "HEAD..origin/master")))) eqn:W.
    + apply word_match_zero, to_uint_zero in W. contradiction.
    + reflexivity.
Qed.

End BranchCheck.

(** ** The workflows *)

Section WorkflowProperties.
Import Text Actions Workflows Shell.

Ltac by_exit_codes exit :=
  cbv -[Z.eqb];
  repeat match goal with
         | |- context [ (exit ?k =? 0)%Z ] => destruct (exit k =? 0)%Z eqn:?; cbv -[Z.eqb]
         end;
  try congruence.

(** The step at each named position. *)
Lemma steps_at_positions :
  nth_error (steps pr_check) branch_check_ix
    = Some (run_step "Check if the branch is behind the master"
                     [ render_pipeline branch_check ]) /\
  nth_error (steps lint_test) pylint_ix
    = Some (run_step "Check pylint" [ "pylint -rn --rcfile pylintrc batchflow" ]) /\
  nth_error (steps lint_test) slack_good_ix
    = Some (slack_notification success "good") /\
  nth_error (steps lint_test) slack_danger_ix
    = Some (slack_notification failure "danger").
Proof. repeat split; reflexivity. Qed.

Lemma test_requirements_positions (c : cell) :
  nth_error (steps (test_requirements c)) import_ix
    = Some (run_step "Run 'import batchflow' in installed environemnt"
                     [ "python -c 'import batchflow'" ]) /\
  nth_error (steps (test_requirements c)) basic_tests_ix
    = Some (run_step "Run basic tests"
              [ "cd batchflow/tests";
                "pytest --disable-pytest-warnings -v dataset_test.py filesindex_test.py datasetindex_test.py" ]).
Proof. split; reflexivity. Qed.

(** A step of a job that exits non-zero fails the job, when the step does
    not continue on error. *)
Lemma nonzero_step_fails_job (exit : nat -> Z) (j : job) (k : nat) (s : step) :
  nth_error (steps j) k = Some s ->
  continue_on_error s = false ->
  exits_nonzero (result_of exit j k) = true ->
  status exit j = Failed.
Proof.
  intros Hk Hc Hnz. unfold status, run_job.
  rewrite (nonzero_exit_fails exit (steps j) 0 false k s Hk Hc Hnz).
  reflexivity.
Qed.

(** C3: the branch check [git rev-list --count HEAD..origin/master | grep -w
    "0"] of the pr-check job exits with 0 exactly when no commit of
    origin/master is missing from HEAD; when one or more are missing it exits
    non-zero and the job fails. *)
Theorem branch_check_fails_when_behind (count : string -> N) (exit : nat -> Z) :
  exit branch_check_ix = branch_check_exit count ->
  (count "HEAD..origin/master" = 0%N ->
     branch_check_exit count = 0%Z /\
     (exit 0 = 0%Z -> result_of exit pr_check branch_check_ix = Ran 0%Z)) /\
  ((0 < count "HEAD..origin/master")%N ->
     branch_check_exit count <> 0%Z /\ status exit pr_check = Failed).
Proof.
  intro Hexit. rewrite branch_check_exit_spec in *. split.
  - intro H0. rewrite H0 in *. simpl in *. split; [reflexivity|].
    intro Hco. unfold branch_check_ix in Hexit.
    cbv -[Z.eqb]. rewrite Hco, Hexit. by_exit_codes exit; reflexivity.
  - intro Hpos.
    assert (E : (count "HEAD..origin/master" =? 0)%N = false)
      by (apply N.eqb_neq; lia).
    rewrite E in *. split; [discriminate|].
    unfold branch_check_ix in Hexit.
    cbv -[Z.eqb]. rewrite Hexit. by_exit_codes exit; reflexivity.
Qed.

Lemma branch_check_fails_when_behind_witness :
  let count := fun _ : string => 12%N in
  let exit := fun k : nat => if (k =? 1)%nat then 1%Z else 0%Z in
  branch_check_exit count <> 0%Z /\ status exit pr_check = Failed.
Proof.
  intros count exit.
  apply (branch_check_fails_when_behind count exit); [reflexivity | reflexivity].
Defined.

(** C7: test_requirements runs in the six cells of a matrix of three
    operating systems and two Python versions; in each cell a non-zero exit
    of [python -c 'import batchflow'] or of the pytest run on
    dataset_test.py, filesindex_test.py and datasetindex_test.py fails the
    job, and the job succeeds only when both steps ran and exited with 0. *)
Theorem smoke_test_needs_import_and_tests (c : cell) (exit : nat -> Z) :
  In c cells ->
  (List.length cells = 3 * 2 /\
   In (os c) [ "ubuntu-latest"; "macos-latest"; "windows-latest" ] /\
   In (python_version c) [ "3.6"; "3.7" ] /\
   (forall o p, In o matrix_os -> In p matrix_python_version ->
      In {| os := o; python_version := p |} cells)) /\
  (exits_nonzero (result_of exit (test_requirements c) import_ix) = true ->
     status exit (test_requirements c) = Failed) /\
  (exits_nonzero (result_of exit (test_requirements c) basic_tests_ix) = true ->
     status exit (test_requirements c) = Failed) /\
  (status exit (test_requirements c) = Succeeded ->
     result_of exit (test_requirements c) import_ix = Ran 0%Z /\
     result_of exit (test_requirements c) basic_tests_ix = Ran 0%Z).
Proof.
  intro Hc. destruct (test_requirements_positions c) as [Pi Pt].
  split; [|split; [|split]].
  - split; [reflexivity|].
    split; [|split].
    + simpl in Hc.
      repeat (destruct Hc as [<-|Hc]; [simpl; tauto|]). contradiction.
    + simpl in Hc.
      repeat (destruct Hc as [<-|Hc]; [simpl; tauto|]). contradiction.
    + intros o p Ho Hp. unfold cells. apply in_flat_map.
      exists o. split; [exact Ho|].
      apply (in_map (fun p => {| os := o; python_version := p |})), Hp.
  - apply (nonzero_step_fails_job exit _ _ _ Pi); reflexivity.
  - apply (nonzero_step_fails_job exit _ _ _ Pt); reflexivity.
  - unfold status, run_job. intro Hs.
    destruct (snd (run_steps exit 0 false (steps (test_requirements c)))) eqn:R;
      [discriminate|].
    destruct (success_ran_all exit _ 0 false _ _ R Pi) as [Ri Zi]; [discriminate|].
    destruct (success_ran_all exit _ 0 false _ _ R Pt) as [Rt Zt]; [discriminate|].
    unfold result_of, results, run_job. rewrite Ri, Rt.
    simpl in Zi, Zt |- *. rewrite Zi, Zt by reflexivity. split; reflexivity.
Qed.

Lemma smoke_test_needs_import_and_tests_witness :
  let c := {| os := "windows-latest"; python_version := "3.6" |} in
  let exit := fun k : nat => if (k =? 3)%nat then 1%Z else 0%Z in
  status exit (test_requirements c) = Failed.
Proof.
  intros c exit.
  refine (proj1 (proj2 (smoke_test_needs_import_and_tests c exit _)) _).
  - simpl. tauto.
  - reflexivity.
Defined.

(** C8: in the lint-test job a non-zero exit of the pylint step or of the
    pytest step, and in the test_requirements job a non-zero exit of the
    import step or of the pytest step, makes the job's status a failure. *)
Theorem nonzero_exit_fails_the_job (exit : nat -> Z) (c : cell) :
  (exits_nonzero (result_of exit lint_test pylint_ix) = true ->
     status exit lint_test = Failed) /\
  (exits_nonzero (result_of exit lint_test run_tests_ix) = true ->
     status exit lint_test = Failed) /\
  (exits_nonzero (result_of exit (test_requirements c) import_ix) = true ->
     status exit (test_requirements c) = Failed) /\
  (exits_nonzero (result_of exit (test_requirements c) basic_tests_ix) = true ->
     status exit (test_requirements c) = Failed).
Proof.
  split; [|split; [|split]]; intro H.
  - eapply nonzero_step_fails_job; [| |exact H]; reflexivity.
  - eapply nonzero_step_fails_job; [| |exact H]; reflexivity.
  - eapply nonzero_step_fails_job; [| |exact H]; reflexivity.
  - eapply nonzero_step_fails_job; [| |exact H]; reflexivity.
Qed.

Lemma nonzero_exit_fails_the_job_witness :
  let exit := fun k : nat => if (k =? 2)%nat then 4%Z else 0%Z in
  status exit lint_test = Failed.
Proof.
  intro exit.
  refine (proj1 (nonzero_exit_fails_the_job exit
                   {| os := "ubuntu-latest"; python_version := "3.7" |}) _).
  reflexivity.
Defined.

(** C9: the 'Run tests' step of lint-test is guarded by [if: always()]: it
    is executed in every run of the job, also when the pylint step exits
    non-zero, in which case the job fails all the same. *)
Theorem run_tests_always_executes (exit : nat -> Z) :
  option_map step_if (nth_error (steps lint_test) run_tests_ix) = Some (Some always) /\
  option_map step_action (nth_error (steps lint_test) run_tests_ix)
    = Some (Run [ "pytest -m " ++ q "not slow" ++ " --disable-pytest-warnings -v" ]) /\
  result_of exit lint_test run_tests_ix = Ran (exit run_tests_ix) /\
  (exits_nonzero (result_of exit lint_test pylint_ix) = true ->
     status exit lint_test = Failed /\
     result_of exit lint_test run_tests_ix = Ran (exit run_tests_ix)).
Proof.
  assert (R : result_of exit lint_test run_tests_ix = Ran (exit run_tests_ix)).
  { by_exit_codes exit; reflexivity. }
  split; [reflexivity|]. split; [reflexivity|]. split; [exact R|].
  intro H. split; [|exact R].
  eapply nonzero_step_fails_job; [| |exact H]; reflexivity.
Qed.

Lemma run_tests_always_executes_witness :
  let exit := fun k : nat => if (k =? 2)%nat then 16%Z else 0%Z in
  status exit lint_test = Failed /\
  result_of exit lint_test run_tests_ix = Ran (exit run_tests_ix).
Proof.
  intro exit.
  refine (proj2 (proj2 (proj2 (run_tests_always_executes exit))) _).
  reflexivity.
Defined.

(** The pull-request event runs no pylint step: the steps it sets off are
    those of the PR workflow, none of which mentions pylint. *)
Lemma pull_request_runs_no_pylint :
  triggered (wf_on pr_workflow) (PullRequest "master") = true /\
  existsb (mentions "pylint") (triggered_steps (PullRequest "master")) = false.
Proof. split; vm_compute; reflexivity. Qed.

(** C2, amended: a pull request targeting master triggers the PR workflow,
    whose steps are those of pr-check and of the six test_requirements jobs.
    Each of these jobs runs a test subset with pytest: pr-check the non-slow
    tests with coverage, test_requirements the three named test files.  None
    of their steps mentions pylint.  The pylint step belongs to the
    lint-test job of the push-triggered status workflow, which no
    pull-request event triggers. *)
Theorem pull_request_runs_tests_push_runs_pylint :
  triggered (wf_on pr_workflow) (PullRequest "master") = true /\
  triggered_steps (PullRequest "master")
    = (steps pr_check ++ flat_map (fun c => steps (test_requirements c)) cells)%list /\
  nth_error (steps pr_check) 2
    = Some (run_step "Generate coverage report"
              [ "pip3 install -U pytest-cov";
                "pytest -m " ++ q "not slow" ++ " --cov=./ --cov-report=xml" ]) /\
  (forall c,
     nth_error (steps (test_requirements c)) basic_tests_ix
       = Some (run_step "Run basic tests"
                 [ "cd batchflow/tests";
                   "pytest --disable-pytest-warnings -v dataset_test.py filesindex_test.py datasetindex_test.py" ])) /\
  (forall j, In j (wf_jobs pr_workflow) ->
     existsb (invokes "pytest") (steps j) = true /\
     existsb (mentions "pylint") (steps j) = false) /\
  existsb (invokes "pytest") (triggered_steps (PullRequest "master")) = true /\
  existsb (invokes "pylint") (triggered_steps (PullRequest "master")) = false /\
  existsb (mentions "pylint") (triggered_steps (PullRequest "master")) = false /\
  nth_error (steps lint_test) pylint_ix
    = Some (run_step "Check pylint" [ "pylint -rn --rcfile pylintrc batchflow" ]) /\
  existsb (invokes "pylint") (all_steps status_workflow) = true /\
  (forall base, triggered (wf_on status_workflow) (PullRequest base) = false) /\
  (forall base, triggered_steps (PullRequest base) = steps_on pr_workflow (PullRequest base)).
Proof.
  split; [vm_compute; reflexivity|].
  split; [vm_compute; reflexivity|].
  split; [reflexivity|].
  split; [intro c; reflexivity|].
  split.
  { intros j [<-|Hj].
    - split; vm_compute; reflexivity.
    - apply in_map_iff in Hj as (c & <- & Hc).
      simpl in Hc.
      repeat (destruct Hc as [<-|Hc]; [split; vm_compute; reflexivity|]).
      contradiction. }
  split; [vm_compute; reflexivity|].
  split; [vm_compute; reflexivity|].
  split; [vm_compute; reflexivity|].
  split; [reflexivity|].
  split; [vm_compute; reflexivity|].
  split; [reflexivity|].
  intro base. unfold triggered_steps, workflows. simpl flat_map.
  unfold steps_on at 2. simpl. rewrite List.app_nil_r. reflexivity.
Qed.

(** When the success-guarded Slack step itself exits non-zero, the
    failure-guarded one runs after it: both Slack steps are executed. *)
Lemma both_slack_steps_can_run :
  let exit := fun k : nat => if (k =? slack_good_ix)%nat then 1%Z else 0%Z in
  executed (result_of exit lint_test slack_good_ix) = true /\
  executed (result_of exit lint_test slack_danger_ix) = true.
Proof. split; reflexivity. Qed.

(** C6, amended: in every run of the lint-test job, the two Slack steps carry
    the colours good and danger under [if: success()] and [if: failure()];
    when the job succeeds only the good one is executed; when the job fails
    the danger one is executed, and the good one has been executed too only
    in the runs where it is the good step itself that exited non-zero. *)
Theorem slack_notification_follows_status (exit : nat -> Z) :
  (nth_error (steps lint_test) slack_good_ix = Some (slack_notification success "good") /\
   nth_error (steps lint_test) slack_danger_ix = Some (slack_notification failure "danger") /\
   contains (esc "color" ++ ": " ++ esc "good") (slack_args "good") = true /\
   contains (esc "color" ++ ": " ++ esc "danger") (slack_args "danger") = true) /\
  (status exit lint_test = Succeeded ->
     executed (result_of exit lint_test slack_good_ix) = true /\
     executed (result_of exit lint_test slack_danger_ix) = false) /\
  (status exit lint_test = Failed ->
     executed (result_of exit lint_test slack_danger_ix) = true /\
     executed (result_of exit lint_test slack_good_ix)
       = exits_nonzero (result_of exit lint_test slack_good_ix)) /\
  xorb (executed (result_of exit lint_test slack_good_ix))
       (executed (result_of exit lint_test slack_danger_ix))
    = negb (exits_nonzero (result_of exit lint_test slack_good_ix)).
Proof.
  split; [|split; [|split]].
  - split; [reflexivity|]. split; [reflexivity|]. split; vm_compute; reflexivity.
  - by_exit_codes exit; intro H; try discriminate H; split; reflexivity.
  - by_exit_codes exit; intro H; try discriminate H; split; reflexivity.
  - by_exit_codes exit; reflexivity.
Qed.

Lemma slack_notification_follows_status_witness :
  let exit := fun k : nat => if (k =? 3)%nat then 2%Z else 0%Z in
  executed (result_of exit lint_test slack_danger_ix) = true /\
  executed (result_of exit lint_test slack_good_ix)
    = exits_nonzero (result_of exit lint_test slack_good_ix).
Proof.
  intro exit.
  refine (proj1 (proj2 (proj2 (slack_notification_follows_status exit))) _).
  reflexivity.
Defined.

(** Every path below [docs/] matches the pattern [docs/**]. *)
Lemma docs_pattern_matches (rest : string) :
  glob_match "docs/**" ("docs/" ++ rest) = true.
Proof.
  unfold glob_match. simpl.
  induction rest as [|c rest IH]; [reflexivity|exact IH].
Qed.

Lemma docs_ignored (rest : string) :
  matches_any [ "docs/**" ] ("docs/" ++ rest) = true.
Proof.
  unfold matches_any. cbn [existsb]. rewrite docs_pattern_matches. reflexivity.
Qed.

(** C10: a push whose changed paths all lie under docs/ does not trigger the
    status workflow: none of the steps of lint-test (lint, tests, Slack
    notifications) is set off. *)
Theorem docs_only_push_is_ignored (changed : list string) :
  (forall p, In p changed -> exists rest, p = "docs/" ++ rest) ->
  triggered (wf_on status_workflow) (Push changed) = false /\
  steps_on status_workflow (Push changed) = [] /\
  triggered_steps (Push changed) = [].
Proof.
  intro Hdocs.
  assert (T : triggered (wf_on status_workflow) (Push changed) = false).
  { change (existsb (fun p => negb (matches_any [ "docs/**" ] p)) changed = false).
    induction changed as [|p ps IH]; [reflexivity|].
    cbn [existsb].
    destruct (Hdocs p (or_introl eq_refl)) as [rest ->].
    rewrite docs_ignored. cbn [negb orb].
    apply IH. intros p' Hp'. apply Hdocs. right; exact Hp'. }
  split; [exact T|].
  assert (S0 : steps_on status_workflow (Push changed) = []).
  { unfold steps_on. rewrite T. reflexivity. }
  split; [exact S0|].
  unfold triggered_steps, workflows. simpl flat_map.
  rewrite S0. reflexivity.
Qed.

Lemma docs_only_push_is_ignored_witness :
  triggered (wf_on status_workflow)
            (Push [ "docs/index.rst"; "docs/api/batchflow.research.rst" ]) = false.
Proof.
  refine (proj1 (docs_only_push_is_ignored
                   [ "docs/index.rst"; "docs/api/batchflow.research.rst" ] _)).
  intros p [<-|[<-|[]]].
  - exists "index.rst". reflexivity.
  - exists "api/batchflow.research.rst". reflexivity.
Defined.

End WorkflowProperties.

(** ** Domains and the research loop *)

Section ResearchProperties.
Import Research.
Local Open Scope list_scope.

Variable Metric : Type.
Variable execute : Config -> Metric.

Lemma flat_map_length_const {A B : Type} (g : A -> list B) (k : nat) (l : list A) :
  (forall x, List.length (g x) = k) ->
  List.length (flat_map g l) = List.length l * k.
Proof.
  intro Hg. induction l as [|x l IH]; simpl; [reflexivity|].
  rewrite length_app, Hg, IH. reflexivity.
Qed.

Lemma flat_map_singleton {A B : Type} (f : A -> B) (l : list A) :
  flat_map (fun x => [ f x ]) l = map f l.
Proof.
  induction l as [|x l IH]; simpl; [reflexivity|]. rewrite IH. reflexivity.
Qed.

(** The product of two options enumerates the pairs of their values, the
    first option varying slowest. *)
Lemma configs_option_mul (a b : Option) :
  configs (option_mul a b) =
  map (fun vw => [ (opt_name a, fst vw); (opt_name b, snd vw) ])
      (list_prod (opt_values a) (opt_values b)).
Proof.
  unfold option_mul. cbn [configs].
  change (flat_map (fun v => map (fun c => (opt_name b, v) :: c) [ [] ])
                   (opt_values b))
    with (flat_map (fun w => [ [ (opt_name b, w) ] ]) (opt_values b)).
  rewrite flat_map_singleton. induction (opt_values a) as [|v va IH]; [reflexivity|].
  cbn [flat_map list_prod]. rewrite map_app, IH, !map_map. reflexivity.
Qed.

(** Multiplying domains multiplies the numbers of configurations. *)
Lemma configs_domain_mul (d e : Domain) :
  List.length (configs (domain_mul d e))
  = List.length (configs d) * List.length (configs e).
Proof.
  unfold domain_mul. induction d as [|o d IH]; simpl.
  - lia.
  - rewrite (flat_map_length_const _ (List.length (configs (d ++ e))))
      by (intro; apply length_map).
    rewrite (flat_map_length_const _ (List.length (configs d)))
      by (intro; apply length_map).
    rewrite IH. lia.
Qed.

Lemma run_unfold (r : research Metric) (fuel : nat) (s s' : state Metric) :
  step execute r s = Some s' ->
  run execute r (S fuel) s = run execute r fuel s'.
Proof. intro H. simpl. rewrite H. reflexivity. Qed.

Lemma run_stop (r : research Metric) (fuel : nat) (s : state Metric) :
  step execute r s = None -> run execute r fuel s = Some s.
Proof. intro H. destruct fuel; simpl; rewrite H; reflexivity. Qed.

(** Without a callback the loop runs the pending configurations in order,
    one row each, and stops. *)
Lemma run_plain (r : research Metric) :
  update_domain r = None ->
  forall (p : list Config) (s : state Metric),
    pending s = p ->
    exists final,
      run execute r (List.length p) s = Some final /\
      results final = results s ++ tagged execute (updates s) p /\
      pending final = [] /\
      updates final = updates s /\
      step execute r final = None.
Proof.
  intros Hu p. induction p as [|c rest IH]; intros s Hp.
  - assert (St : step execute r s = None)
      by (unfold step, is_due; rewrite Hu, Hp; reflexivity).
    exists s. split; [apply run_stop, St|].
    split; [simpl; rewrite List.app_nil_r; reflexivity|].
    split; [exact Hp|]. split; [reflexivity|exact St].
  - assert (St : step execute r s = Some (run_config Metric execute s c rest)).
    { unfold step, is_due. rewrite Hu, Hp. reflexivity. }
    destruct (IH (run_config Metric execute s c rest) eq_refl)
      as (final & Hr & Hres & Hpe & Hup & Hst).
    exists final. split.
    + simpl List.length. rewrite (run_unfold _ _ _ _ St). exact Hr.
    + split; [|split; [exact Hpe|split; [exact Hup|exact Hst]]].
      rewrite Hres. simpl. rewrite <- app_assoc. reflexivity.
Qed.

(** A due callback is configured, and finds the updates active and fewer
    than [n_updates]. *)
Lemma is_due_inv (r : research Metric) (s : state Metric) (u : Update Metric) :
  is_due Metric r s = Some u ->
  update_domain r = Some u /\ active s = true /\ updates s < n_updates u /\
  max_updates r = n_updates u.
Proof.
  unfold is_due, max_updates. destruct (update_domain r) as [u'|]; [|discriminate].
  destruct (due Metric u' s) eqn:D; [|discriminate].
  intro H; injection H as <-.
  unfold due in D. apply andb_prop in D as [D _]. apply andb_prop in D as [Da Du].
  apply Nat.ltb_lt in Du. auto.
Qed.

(** Invoking the callback uses up budget. *)
Lemma invoke_budget (r : research Metric) (s : state Metric) (u : Update Metric) :
  is_due Metric r s = Some u ->
  budget r (invoke Metric u s) < budget r s.
Proof.
  intro D. apply is_due_inv in D as (_ & Ha & Hlt & Hm).
  unfold budget, invoke. rewrite Ha, Hm.
  destruct (update_fn u (results s)); simpl; lia.
Qed.

(** Every run ends: each step either uses up budget or runs a pending
    configuration. *)
Lemma run_terminates (r : research Metric) :
  forall (b p : nat) (s : state Metric),
    budget r s <= b -> List.length (pending s) <= p ->
    exists fuel final, run execute r fuel s = Some final.
Proof.
  induction b as [b IHb] using lt_wf_ind.
  induction p as [|p IHp]; intros s Hb Hp.
  - destruct (step execute r s) as [s'|] eqn:St.
    + unfold step in St. destruct (is_due Metric r s) as [u|] eqn:D.
      * injection St as <-. pose proof (invoke_budget r s u D) as Hlt.
        destruct (IHb (budget r (invoke Metric u s)) ltac:(lia)
                      (List.length (pending (invoke Metric u s)))
                      (invoke Metric u s) (le_n _) (le_n _)) as (fuel & final & Hr).
        exists (S fuel), final. rewrite (run_unfold r fuel s (invoke Metric u s)); [exact Hr|].
        unfold step. rewrite D. reflexivity.
      * destruct (pending s); [discriminate|simpl in Hp; lia].
    + exists 0, s. apply run_stop, St.
  - destruct (step execute r s) as [s'|] eqn:St.
    + pose proof St as St0. unfold step in St. destruct (is_due Metric r s) as [u|] eqn:D.
      * injection St as <-. pose proof (invoke_budget r s u D) as Hlt.
        destruct (IHb (budget r (invoke Metric u s)) ltac:(lia)
                      (List.length (pending (invoke Metric u s)))
                      (invoke Metric u s) (le_n _) (le_n _)) as (fuel & final & Hr).
        exists (S fuel), final. rewrite (run_unfold r fuel s _ St0). exact Hr.
      * destruct (pending s) as [|c rest] eqn:Pe; [discriminate|].
        injection St as <-.
        destruct (IHp (run_config Metric execute s c rest)) as (fuel & final & Hr).
        { unfold budget in *. simpl. exact Hb. }
        { simpl in *. lia. }
        exists (S fuel), final. rewrite (run_unfold r fuel s _ St0). exact Hr.
    + exists 0, s. apply run_stop, St.
Qed.

(** *** The history is consistent along a run *)

Lemma consistent_init (r : research Metric) : consistent r (init r).
Proof.
  constructor; simpl.
  - lia.
  - discriminate.
  - reflexivity.
  - reflexivity.
  - exists (init_domain r). split; [reflexivity|apply incl_refl].
  - intros row [].
Qed.

Lemma consistent_invoke (r : research Metric) (s : state Metric) (u : Update Metric) :
  is_due Metric r s = Some u ->
  consistent r s -> consistent r (invoke Metric u s).
Proof.
  intros D C. apply is_due_inv in D as (_ & Ha & Hlt & Hm).
  destruct C as [Cb Ce Cd Cc Cp Cr]. rewrite Ha in Cc.
  rewrite List.app_nil_r in Cc.
  unfold invoke. destruct (update_fn u (results s)) as [d|]; constructor;
    cbn [updates domains pending results active calls].
  - lia.
  - discriminate.
  - rewrite length_app, Cd. simpl. lia.
  - rewrite List.app_nil_r, Cc.
    destruct (domains s) as [|d0 ds]; [discriminate|].
    simpl. rewrite map_app. reflexivity.
  - exists d. split; [|apply incl_refl].
    rewrite nth_error_app2 by lia.
    replace (S (updates s) - List.length (domains s)) with 0 by lia.
    reflexivity.
  - intros row Hrow. destruct (Cr row Hrow) as (d' & Hn & Hin).
    exists d'. split; [|exact Hin].
    rewrite nth_error_app1; [exact Hn|].
    apply nth_error_Some. congruence.
  - exact Cb.
  - intros _. lia.
  - exact Cd.
  - rewrite Cc. reflexivity.
  - exact Cp.
  - exact Cr.
Qed.

Lemma consistent_run_config (r : research Metric) (s : state Metric)
      (c : Config) (rest : list Config) :
  pending s = c :: rest ->
  consistent r s -> consistent r (run_config Metric execute s c rest).
Proof.
  intros Pe [Cb Ce Cd Cc Cp Cr]. constructor; simpl; try assumption.
  - destruct Cp as (d & Hn & Hi). exists d. split; [exact Hn|].
    intros x Hx. apply Hi. rewrite Pe. right; exact Hx.
  - intros row Hrow. apply in_app_or in Hrow as [Hrow|[<-|[]]].
    + apply Cr, Hrow.
    + simpl. destruct Cp as (d & Hn & Hi). exists d. split; [exact Hn|].
      apply Hi. rewrite Pe. left; reflexivity.
Qed.

Lemma consistent_step (r : research Metric) (s s' : state Metric) :
  step execute r s = Some s' -> consistent r s -> consistent r s'.
Proof.
  unfold step. destruct (is_due Metric r s) as [u|] eqn:D.
  - intro H; injection H as <-. apply consistent_invoke, D.
  - destruct (pending s) as [|c rest] eqn:Pe; [discriminate|].
    intro H; injection H as <-. apply consistent_run_config, Pe.
Qed.

Lemma consistent_run (r : research Metric) :
  forall (fuel : nat) (s final : state Metric),
    run execute r fuel s = Some final ->
    consistent r s ->
    consistent r final /\ step execute r final = None.
Proof.
  induction fuel as [|fuel IH]; intros s final Hr C; simpl in Hr;
    destruct (step execute r s) as [s'|] eqn:St; try discriminate.
  - injection Hr as <-. auto.
  - apply (IH s' final Hr). apply (consistent_step r s s' St C).
  - injection Hr as <-. auto.
Qed.

(** Every research runs to a final state, which is consistent. *)
Lemma run_ends_consistent (r : research Metric) :
  exists fuel final,
    run execute r fuel (init r) = Some final /\
    consistent r final /\ step execute r final = None.
Proof.
  destruct (run_terminates r (budget r (init r))
                           (List.length (pending (init r))) (init r)
                           (le_n _) (le_n _)) as (fuel & final & Hr).
  exists fuel, final. split; [exact Hr|].
  apply (consistent_run r fuel (init r) final Hr (consistent_init r)).
Qed.


(** The configuration at position [i * n + j] of a product pairs the
    [i]-th value of the first option with the [j]-th of the second. *)
Lemma nth_error_list_prod {A B : Type} (l : list A) (l' : list B) :
  forall i j x y,
    nth_error l i = Some x -> nth_error l' j = Some y ->
    nth_error (list_prod l l') (i * List.length l' + j) = Some (x, y).
Proof.
  induction l as [|x0 l IH]; intros i j x y Hi Hj.
  - destruct i; discriminate.
  - cbn [list_prod]. destruct i as [|i].
    + injection Hi as <-. cbn [Nat.mul Nat.add].
      rewrite nth_error_app1
        by (rewrite length_map; apply nth_error_Some; congruence).
      rewrite nth_error_map, Hj. reflexivity.
    + cbn [nth_error] in Hi. rewrite nth_error_app2 by (rewrite length_map; simpl; lia).
      rewrite length_map.
      replace (S i * List.length l' + j - List.length l')
        with (i * List.length l' + j) by (simpl; lia).
      apply IH; assumption.
Qed.

(** C4: the product of two options with [m] and [n] candidate values is a
    domain of exactly [m * n] configurations, one per pair of candidate
    values: the configuration at position [i * n + j] gives the [i]-th value
    of the first option to its name and the [j]-th value of the second to
    its name.  A research over this domain runs the pipelines once on each
    configuration, in this order: its table has one row per configuration,
    with what the pipelines measure on it and the counter 0. *)
Theorem option_product_is_cartesian (a b : Option) :
  let r := {| init_domain := option_mul a b; update_domain := None |} in
  configs (option_mul a b)
    = map (fun vw => [ (opt_name a, fst vw); (opt_name b, snd vw) ])
          (list_prod (opt_values a) (opt_values b)) /\
  List.length (configs (option_mul a b))
    = List.length (opt_values a) * List.length (opt_values b) /\
  (forall i j v w,
     nth_error (opt_values a) i = Some v ->
     nth_error (opt_values b) j = Some w ->
     nth_error (configs (option_mul a b)) (i * List.length (opt_values b) + j)
       = Some [ (opt_name a, v); (opt_name b, w) ]) /\
  (forall v w, In v (opt_values a) -> In w (opt_values b) ->
     In [ (opt_name a, v); (opt_name b, w) ] (configs (option_mul a b))) /\
  exists fuel final,
    run execute r fuel (init r) = Some final /\
    step execute r final = None /\
    pending final = [] /\
    updates final = 0 /\
    List.length (results final)
      = List.length (opt_values a) * List.length (opt_values b) /\
    results final
      = map (fun vw =>
               {| row_config := [ (opt_name a, fst vw); (opt_name b, snd vw) ];
                  row_update := 0;
                  row_metric := execute [ (opt_name a, fst vw); (opt_name b, snd vw) ] |})
            (list_prod (opt_values a) (opt_values b)).
Proof.
  intro r. pose proof (configs_option_mul a b) as E.
  split; [exact E|]. split; [|split; [|split]].
  - rewrite E, length_map, length_prod. reflexivity.
  - intros i j v w Hv Hw. rewrite E, nth_error_map.
    rewrite (nth_error_list_prod _ _ i j v w Hv Hw). reflexivity.
  - intros v w Hv Hw. rewrite E.
    apply (in_map (fun vw => [ (opt_name a, fst vw); (opt_name b, snd vw) ])
                  _ (v, w)).
    apply in_prod; assumption.
  - destruct (run_plain r eq_refl (configs (option_mul a b)) (init r) eq_refl)
      as (final & Hr & Hres & Hpe & Hup & Hst).
    exists (List.length (configs (option_mul a b))), final.
    split; [exact Hr|]. split; [exact Hst|]. split; [exact Hpe|].
    split; [exact Hup|].
    rewrite Hres. cbn [init results updates List.app]. unfold tagged.
    rewrite E, map_map. cbn beta.
    split; [|reflexivity].
    rewrite length_map, length_prod. reflexivity.
Qed.

(** *** The table, segment by segment *)

Lemma tagged_app (k : nat) (cs cs' : list Config) :
  tagged execute k (cs ++ cs') = tagged execute k cs ++ tagged execute k cs'.
Proof. unfold tagged. apply map_app. Qed.

Lemma rows_of_app (segs segs' : list (list Config)) :
  forall k,
    rows_of execute k (segs ++ segs')
    = rows_of execute k segs ++ rows_of execute (k + List.length segs) segs'.
Proof.
  induction segs as [|cs segs IH]; intro k; cbn [List.app rows_of List.length].
  - rewrite Nat.add_0_r. reflexivity.
  - rewrite IH, <- app_assoc. do 3 f_equal. lia.
Qed.

Lemma traced_init (r : research Metric) : traced execute r (init r) [] [].
Proof.
  split; [reflexivity|].
  exists [], (init_domain r). repeat split; try reflexivity. constructor.
Qed.

(** A callback with the cadence [last] is due only on an exhausted domain. *)
Lemma due_when_exhausted (r : research Metric) (s : state Metric) (u : Update Metric) :
  is_due Metric r s = Some u -> until_exhausted r -> pending s = [].
Proof.
  unfold is_due, until_exhausted.
  destruct (update_domain r) as [u'|]; [|discriminate].
  destruct (due Metric u' s) eqn:D; [|discriminate].
  intros _ Hl. unfold due in D. rewrite Hl in D.
  apply andb_prop in D as [_ D]. unfold exhausted in D.
  destruct (pending s); [reflexivity|discriminate].
Qed.

Lemma traced_step (r : research Metric) (s s' : state Metric)
      (past : list (list Config)) (cur : list Config) :
  step execute r s = Some s' ->
  traced execute r s past cur ->
  exists past' cur', traced execute r s' past' cur'.
Proof.
  intros St (Hres & ds & d & Hd & Hl & HF & Hc & Hall).
  unfold step in St. destruct (is_due Metric r s) as [u|] eqn:D.
  - injection St as <-. unfold invoke.
    destruct (update_fn u (results s)) as [d'|].
    + exists (past ++ [ cur ]), [].
      split; cbn [results domains updates pending].
      * rewrite Hres, (rows_of_app (past ++ [ cur ]) [ [] ]).
        cbn [rows_of tagged map List.app]. rewrite List.app_nil_r. reflexivity.
      * exists (ds ++ [ d ]), d'. split; [rewrite Hd; reflexivity|].
        split; [rewrite length_app, Hl; simpl; lia|].
        split; [|split; [reflexivity|]].
        -- apply Forall2_app; [exact HF|].
           constructor; [|constructor]. exists (pending s). exact Hc.
        -- intro Hu. rewrite map_app, (Hall Hu). cbn [map]. do 2 f_equal.
           rewrite Hc, (due_when_exhausted r s u D Hu), List.app_nil_r.
           reflexivity.
    + exists past, cur. split; [exact Hres|].
      exists ds, d. repeat split; assumption.
  - destruct (pending s) as [|c rest] eqn:Pe; [discriminate|].
    injection St as <-. exists past, (cur ++ [ c ]).
    unfold run_config. split; cbn [results domains updates pending].
    + rewrite Hres, !rows_of_app. cbn [rows_of]. rewrite !List.app_nil_r.
      rewrite tagged_app, <- app_assoc. do 2 f_equal.
      unfold tagged. cbn [map]. do 2 f_equal.
      rewrite Nat.add_0_l, (Forall2_length HF). symmetry; exact Hl.
    + exists ds, d. split; [exact Hd|]. split; [exact Hl|].
      split; [exact HF|]. split; [|exact Hall].
      rewrite Hc, <- app_assoc. reflexivity.
Qed.

Lemma traced_run (r : research Metric) :
  forall (fuel : nat) (s final : state Metric) past cur,
    run execute r fuel s = Some final ->
    traced execute r s past cur ->
    exists past' cur', traced execute r final past' cur'.
Proof.
  induction fuel as [|fuel IH]; intros s final past cur Hr T; simpl in Hr;
    destruct (step execute r s) as [s'|] eqn:St; try discriminate.
  - injection Hr as <-. eauto.
  - destruct (traced_step r s s' past cur St T) as (past' & cur' & T').
    apply (IH s' final past' cur' Hr T').
  - injection Hr as <-. eauto.
Qed.

Lemma stopped_is_exhausted (r : research Metric) (s : state Metric) :
  step execute r s = None -> pending s = [].
Proof.
  unfold step. destruct (is_due Metric r s); [discriminate|].
  destruct (pending s); [reflexivity|discriminate].
Qed.

(** Selecting by the counter selects a segment. *)
Lemma filter_rows_of (segs : list (list Config)) :
  forall j k,
    filter (fun row : Row Metric => (row_update row =? k)%nat) (rows_of execute j segs)
    = if (j <=? k)%nat then tagged execute k (nth (k - j) segs []) else [].
Proof.
  assert (Ht : forall j k cs,
             filter (fun row : Row Metric => (row_update row =? k)%nat) (tagged execute j cs)
             = if (j =? k)%nat then tagged execute j cs else []).
  { intros j k cs. unfold tagged.
    induction cs as [|c cs IHc]; cbn [map filter row_update].
    - destruct (j =? k)%nat; reflexivity.
    - rewrite IHc. destruct (j =? k)%nat; reflexivity. }
  induction segs as [|cs segs IH]; intros j k; cbn [rows_of].
  - destruct (j <=? k)%nat; [|reflexivity]. destruct (k - j); reflexivity.
  - rewrite filter_app, Ht, IH.
    destruct (j =? k)%nat eqn:E1.
    + apply Nat.eqb_eq in E1. subst k. rewrite Nat.leb_refl, Nat.sub_diag.
      replace (S j <=? j)%nat with false by (symmetry; apply Nat.leb_gt; lia).
      cbn [nth]. apply List.app_nil_r.
    + apply Nat.eqb_neq in E1. destruct (j <=? k)%nat eqn:E2.
      * apply Nat.leb_le in E2.
        replace (S j <=? k)%nat with true by (symmetry; apply Nat.leb_le; lia).
        replace (k - j) with (S (k - S j)) by lia. reflexivity.
      * apply Nat.leb_gt in E2.
        replace (S j <=? k)%nat with false by (symmetry; apply Nat.leb_gt; lia).
        reflexivity.
Qed.


End ResearchProperties.

(** *** The notebook's first domain as an instance *)

Section FirstDomain.
Import Research.
Local Open Scope list_scope.


Lemma option_product_is_cartesian_witness :
  List.length (configs tutorial_domain) = 3 * 1 /\
  nth_error (configs tutorial_domain) (1 * 1 + 0)
    = Some [ ("model"%string, VName "VGG16"); ("n_epochs"%string, VNum 1) ].
Proof.
  pose proof (option_product_is_cartesian Z (fun _ => 0%Z)
                {| opt_name := "model";
                   opt_values := [ VName "VGG7"; VName "VGG16"; VName "ResNet18" ] |}
                {| opt_name := "n_epochs"; opt_values := [ VNum 1 ] |})
    as (_ & Hlen & Hnth & _).
  split; [exact Hlen|].
  apply (Hnth 1 0 (VName "VGG16") (VNum 1)); reflexivity.
Defined.


End FirstDomain.

(** A push that touches a file outside [docs/] does trigger the status
    workflow. *)
Example code_push_triggers :
  Actions.triggered (Workflows.wf_on Workflows.status_workflow)
    (Actions.Push [ "docs/index.rst"; "batchflow/research/domain.py" ]) = true.
Proof. reflexivity. Qed.

(** * Further properties of the workflows *)

(** ** Jobs of plain steps stop at the first failure *)

Section PlainJobs.
Import Actions Runs.
Variable exit : nat -> Z.

Lemma zero_from_S (i n : nat) :
  zero_from exit i (S n) = (exit i =? 0)%Z && zero_from exit (S i) n.
Proof. reflexivity. Qed.

(** Once a step has failed, plain steps are skipped. *)
Lemma plain_after_failure (ss : list step) :
  forall i, Forall plain ss ->
    run_steps exit i true ss = (repeat Skipped (List.length ss), true).
Proof.
  induction ss as [|s ss IH]; intros i Hp; [reflexivity|].
  inversion Hp as [|? ? [Hif _] Hrest]; subst.
  simpl. rewrite Hif. simpl. rewrite (IH (S i) Hrest). reflexivity.
Qed.

Lemma plain_from_start (ss : list step) :
  forall i, Forall plain ss ->
    run_steps exit i false ss
    = (map (fun k => if zero_from exit i (k - i) then Ran (exit k) else Skipped)
           (seq i (List.length ss)),
       negb (zero_from exit i (List.length ss))).
Proof.
  induction ss as [|s ss IH]; intros i Hp; [reflexivity|].
  inversion Hp as [|? ? [Hif Hc] Hrest]; subst.
  cbn [run_steps]. rewrite Hif. cbn [guard negb orb].
  unfold fails. rewrite Hc. cbn [negb]. rewrite andb_true_r.
  cbn [List.length seq map]. rewrite Nat.sub_diag. cbn [zero_from seq forallb].
  fold (zero_from exit (S i) (List.length ss)).
  destruct (exit i =? 0)%Z eqn:E; cbn [negb andb].
  - rewrite (IH (S i) Hrest). f_equal. f_equal.
    apply map_ext_in. intros k Hk. apply in_seq in Hk.
    replace (k - i) with (S (k - S i)) by lia.
    rewrite zero_from_S, E. reflexivity.
  - rewrite (plain_after_failure ss (S i) Hrest). f_equal. f_equal.
    assert (G : forall n j, i < j ->
              repeat Skipped n
              = map (fun k => if zero_from exit i (k - i) then Ran (exit k) else Skipped)
                    (seq j n)).
    { induction n as [|n IHn]; intros j Hj; [reflexivity|].
      cbn [repeat seq map]. rewrite <- (IHn (S j)) by lia.
      replace (j - i) with (S (j - S i)) by lia.
      rewrite zero_from_S, E. reflexivity. }
    apply G. lia.
Qed.

Lemma nth_map_seq {A : Type} (f : nat -> A) (d : A) (i n k : nat) :
  k < n -> nth k (map f (seq i n)) d = f (i + k).
Proof.
  revert i k. induction n as [|n IH]; intros i k Hk; [lia|].
  destruct k as [|k]; cbn [seq map nth].
  - rewrite Nat.add_0_r. reflexivity.
  - rewrite IH by lia. f_equal. lia.
Qed.

(** In a job of plain steps each step runs exactly when all the steps before
    it have exited with 0, and the job succeeds exactly when all steps have. *)
Lemma plain_job (j : job) :
  Forall plain (steps j) ->
  (forall k, k < List.length (steps j) -> result_of exit j k = fail_fast exit k) /\
  (status exit j = Succeeded <->
   zero_from exit 0 (List.length (steps j)) = true).
Proof.
  intro Hp. unfold result_of, results, status, run_job.
  rewrite (plain_from_start (steps j) 0 Hp). cbn [fst snd]. split.
  - intros k Hk.
    rewrite nth_map_seq by exact Hk.
    cbn [Nat.add]. rewrite Nat.sub_0_r. reflexivity.
  - destruct (zero_from exit 0 (List.length (steps j))); cbn [negb];
      split; intro H; try reflexivity; discriminate.
Qed.

End PlainJobs.

(** ** The jobs of the two workflows, step by step *)

Section JobProperties.
Import Text Actions Workflows Shell Runs.

Lemma pr_check_plain : Forall plain (steps pr_check).
Proof. repeat constructor. Qed.

Lemma test_requirements_plain (c : cell) : Forall plain (steps (test_requirements c)).
Proof. repeat constructor. Qed.

(** In pr-check the four steps run in order up to the first one that exits
    non-zero; the steps after it are skipped; the job succeeds exactly when
    all four exit with 0. *)
Theorem pr_check_stops_at_first_failure (exit : nat -> Z) :
  (forall k, k < 4 -> result_of exit pr_check k = fail_fast exit k) /\
  (status exit pr_check = Succeeded <->
   exit 0 = 0%Z /\ exit 1 = 0%Z /\ exit 2 = 0%Z /\ exit 3 = 0%Z).
Proof.
  destruct (plain_job exit pr_check pr_check_plain) as [R S]. split; [exact R|].
  rewrite S. unfold zero_from. cbn [steps pr_check List.length seq forallb].
  rewrite !andb_true_iff, !Z.eqb_eq. tauto.
Qed.

(** In every cell of the matrix, test_requirements runs its five steps in
    order up to the first one that exits non-zero and skips the rest: when
    the requirements cannot be installed, neither the import nor the tests
    are tried.  The job succeeds exactly when all five exit with 0. *)
Theorem test_requirements_stops_at_first_failure (c : cell) (exit : nat -> Z) :
  (forall k, k < 5 -> result_of exit (test_requirements c) k = fail_fast exit k) /\
  (status exit (test_requirements c) = Succeeded <->
   exit 0 = 0%Z /\ exit 1 = 0%Z /\ exit 2 = 0%Z /\ exit 3 = 0%Z /\ exit 4 = 0%Z) /\
  (exit 0 = 0%Z -> exit 1 = 0%Z -> exit 2 <> 0%Z ->
   result_of exit (test_requirements c) import_ix = Skipped /\
   result_of exit (test_requirements c) basic_tests_ix = Skipped).
Proof.
  destruct (plain_job exit (test_requirements c) (test_requirements_plain c)) as [R S].
  split; [exact R|]. split.
  - rewrite S. unfold zero_from.
    cbn [steps test_requirements List.length seq forallb].
    rewrite !andb_true_iff, !Z.eqb_eq. tauto.
  - intros H0 H1 H2. apply Z.eqb_neq in H2.
    rewrite !R by (unfold import_ix, basic_tests_ix; simpl; lia).
    unfold fail_fast, zero_from, import_ix, basic_tests_ix.
    cbn [seq forallb]. rewrite H0, H1, H2. split; reflexivity.
Qed.

Lemma test_requirements_stops_at_first_failure_witness :
  let c := {| os := "macos-latest"; python_version := "3.7" |} in
  let exit := fun k : nat => if (k =? 2)%nat then 1%Z else 0%Z in
  result_of exit (test_requirements c) import_ix = Skipped /\
  result_of exit (test_requirements c) basic_tests_ix = Skipped.
Proof.
  intros c exit.
  refine (proj2 (proj2 (test_requirements_stops_at_first_failure c exit)) _ _ _);
    [reflexivity | reflexivity | discriminate].
Defined.

(** When the branch is behind master, pr-check neither generates the
    coverage report nor uploads it to Codecov: both steps are skipped. *)
Theorem stale_branch_uploads_no_coverage (count : string -> N) (exit : nat -> Z) :
  exit branch_check_ix = branch_check_exit count ->
  (0 < count "HEAD..origin/master")%N ->
  option_map step_name (nth_error (steps pr_check) 2)
    = Some (Some "Generate coverage report") /\
  option_map step_name (nth_error (steps pr_check) 3)
    = Some (Some "Upload coverage to Codecov") /\
  result_of exit pr_check 2 = Skipped /\
  result_of exit pr_check 3 = Skipped.
Proof.
  intros Hexit Hpos. rewrite branch_check_exit_spec in Hexit.
  assert (E : (count "HEAD..origin/master" =? 0)%N = false) by (apply N.eqb_neq; lia).
  rewrite E in Hexit. unfold branch_check_ix in Hexit.
  destruct (plain_job exit pr_check pr_check_plain) as [R _].
  split; [reflexivity|]. split; [reflexivity|].
  rewrite !R by (simpl; lia).
  unfold fail_fast, zero_from. cbn [seq forallb]. rewrite Hexit.
  cbn [Z.eqb]. rewrite !andb_false_r. split; reflexivity.
Qed.

Lemma stale_branch_uploads_no_coverage_witness :
  let count := fun _ : string => 3%N in
  let exit := fun k : nat => if (k =? 1)%nat then 1%Z else 0%Z in
  result_of exit pr_check 2 = Skipped /\ result_of exit pr_check 3 = Skipped.
Proof.
  intros count exit.
  refine (proj2 (proj2 (stale_branch_uploads_no_coverage count exit _ _)));
    reflexivity.
Defined.

(** A job that fails has a step that exited non-zero, or had failed before
    its first step. *)
Lemma failure_has_a_cause (exit : nat -> Z) (ss : list step) :
  forall (i : nat) (failed : bool),
    snd (run_steps exit i failed ss) = true ->
    failed = true \/
    exists k, exits_nonzero (nth k (fst (run_steps exit i failed ss)) Skipped) = true.
Proof.
  induction ss as [|s ss IH]; intros i failed H.
  - left. exact H.
  - cbn [run_steps] in *. destruct (guard (step_if s) failed).
    + specialize (IH (S i) (failed || fails s (exit i))).
      destruct (run_steps exit (S i) (failed || fails s (exit i)) ss) as [rs f].
      cbn [fst snd] in *. destruct (IH H) as [Hf|[k Hk]].
      * apply orb_true_iff in Hf as [Hf|Hf]; [left; exact Hf|].
        right. exists 0. cbn [nth exits_nonzero].
        unfold fails in Hf. apply andb_prop in Hf as [Hf _]. exact Hf.
      * right. exists (S k). exact Hk.
    + specialize (IH (S i) failed).
      destruct (run_steps exit (S i) failed ss) as [rs f].
      cbn [fst snd] in *. destruct (IH H) as [Hf|[k Hk]].
      * left. exact Hf.
      * right. exists (S k). exact Hk.
Qed.

Lemma no_continue_on_error (j : job) :
  In j (wf_jobs pr_workflow ++ wf_jobs status_workflow) ->
  forall s, In s (steps j) -> continue_on_error s = false.
Proof.
  intros Hj s Hs. apply in_app_or in Hj as [Hj|Hj].
  - destruct Hj as [<-|Hj].
    + simpl in Hs. repeat (destruct Hs as [<-|Hs]; [reflexivity|]). contradiction.
    + apply in_map_iff in Hj as (c & <- & _).
      simpl in Hs. repeat (destruct Hs as [<-|Hs]; [reflexivity|]). contradiction.
  - destruct Hj as [<-|[]].
    simpl in Hs. repeat (destruct Hs as [<-|Hs]; [reflexivity|]). contradiction.
Qed.

(** Every job of the two workflows (pr-check, the six test_requirements jobs,
    lint-test) fails exactly when one of its executed steps exits non-zero:
    no step continues on error, and nothing else fails a job. *)
Theorem job_fails_iff_a_step_exits_nonzero (j : job) (exit : nat -> Z) :
  In j (wf_jobs pr_workflow ++ wf_jobs status_workflow) ->
  (status exit j = Failed <->
   exists k, exits_nonzero (result_of exit j k) = true).
Proof.
  intro Hj. pose proof (no_continue_on_error j Hj) as Hc.
  unfold status, result_of, results, run_job. split.
  - intro H. destruct (snd (run_steps exit 0 false (steps j))) eqn:F; [|discriminate].
    destruct (failure_has_a_cause exit (steps j) 0 false F) as [Hf|Hk];
      [discriminate|exact Hk].
  - intros [k Hk].
    assert (Hlt : k < List.length (steps j)).
    { rewrite <- (run_steps_length exit (steps j) 0 false).
      destruct (Nat.lt_ge_cases k (List.length (fst (run_steps exit 0 false (steps j)))))
        as [Hlt|Hge]; [exact Hlt|].
      rewrite nth_overflow in Hk by exact Hge. discriminate. }
    destruct (nth_error (steps j) k) as [s|] eqn:Hs.
    + rewrite (nonzero_exit_fails exit (steps j) 0 false k s Hs
                 (Hc s (nth_error_In _ _ Hs)) Hk).
      reflexivity.
    + apply nth_error_None in Hs. lia.
Qed.

Lemma job_fails_iff_a_step_exits_nonzero_witness :
  let exit := fun k : nat => if (k =? 3)%nat then 1%Z else 0%Z in
  status exit lint_test = Failed.
Proof.
  intro exit.
  refine (proj2 (job_fails_iff_a_step_exits_nonzero lint_test exit _) _).
  - simpl. tauto.
  - exists 3. reflexivity.
Defined.

Ltac exit_cases exit :=
  cbv -[Z.eqb];
  repeat match goal with
         | |- context [ (exit ?k =? 0)%Z ] =>
             destruct (exit k =? 0)%Z eqn:?; cbv -[Z.eqb]
         end;
  try congruence;
  repeat match goal with
         | H : (_ =? _)%Z = true |- _ => apply Z.eqb_eq in H
         | H : (_ =? _)%Z = false |- _ => apply Z.eqb_neq in H
         end.

(** lint-test succeeds exactly when the checkout, the pylint update, pylint,
    the tests and the success notification all exit with 0; the exit code of
    the failure notification has no part in it. *)
Theorem lint_test_succeeds_iff (exit : nat -> Z) :
  status exit lint_test = Succeeded <->
  exit 0 = 0%Z /\ exit 1 = 0%Z /\ exit pylint_ix = 0%Z /\
  exit run_tests_ix = 0%Z /\ exit slack_good_ix = 0%Z.
Proof.
  exit_cases exit; intuition (try congruence; try discriminate).
Qed.

(** pylint runs exactly when the checkout and the pylint update exit with 0.
    When one of them fails, pylint and the success notification are skipped,
    the tests run all the same, the failure notification is sent and the job
    fails. *)
Theorem pylint_runs_only_after_setup (exit : nat -> Z) :
  (executed (result_of exit lint_test pylint_ix) = true <->
   exit 0 = 0%Z /\ exit 1 = 0%Z) /\
  (exit 0 <> 0%Z \/ exit 1 <> 0%Z ->
   result_of exit lint_test pylint_ix = Skipped /\
   result_of exit lint_test run_tests_ix = Ran (exit run_tests_ix) /\
   result_of exit lint_test slack_good_ix = Skipped /\
   result_of exit lint_test slack_danger_ix = Ran (exit slack_danger_ix) /\
   status exit lint_test = Failed).
Proof.
  split.
  - exit_cases exit; intuition (try congruence; try discriminate).
  - exit_cases exit; intuition (try congruence; try discriminate).
Qed.

Lemma pylint_runs_only_after_setup_witness :
  let exit := fun k : nat => if (k =? 0)%nat then 128%Z else 0%Z in
  result_of exit lint_test pylint_ix = Skipped /\
  result_of exit lint_test run_tests_ix = Ran (exit run_tests_ix) /\
  result_of exit lint_test slack_good_ix = Skipped /\
  result_of exit lint_test slack_danger_ix = Ran (exit slack_danger_ix) /\
  status exit lint_test = Failed.
Proof.
  intro exit.
  refine (proj2 (pylint_runs_only_after_setup exit) _).
  left. discriminate.
Defined.

End JobProperties.

(** ** What triggers the workflows *)

Section Triggers.
Import Text Actions Workflows.

(** A pattern that starts with literal characters matches the strings that
    start with them and whose remainder matches the rest of the pattern. *)
Lemma gmatch_literals (l : list ascii) (rest : list tok) :
  forall s,
    gmatch (map Lit l ++ rest)%list s = true <->
    exists s', s = string_of_list_ascii l ++ s' /\ gmatch rest s' = true.
Proof.
  induction l as [|c l IH]; intro s.
  - cbn [map List.app string_of_list_ascii append]. split.
    + intro H. exists s. split; [reflexivity|exact H].
    + intros (s' & -> & H). exact H.
  - destruct s as [|c' s]; cbn [map List.app string_of_list_ascii append gmatch].
    + split; [discriminate|]. intros (s' & E & _). discriminate.
    + rewrite andb_true_iff, Ascii.eqb_eq, IH. split.
      * intros [-> (s' & -> & H)]. exists s'. split; [reflexivity|exact H].
      * intros (s' & E & H). injection E as -> ->.
        split; [reflexivity|]. exists s'. split; [reflexivity|exact H].
Qed.

Lemma gmatch_double_star (s : string) : gmatch [ DoubleStar ] s = true.
Proof. induction s as [|c s IH]; [reflexivity|exact IH]. Qed.

Lemma gmatch_end (s : string) : gmatch [] s = true <-> s = EmptyString.
Proof. destruct s; simpl; split; intro H; try reflexivity; discriminate. Qed.

(** [docs/**] matches exactly the paths that start with [docs/]. *)
Lemma docs_pattern_iff (p : string) :
  glob_match "docs/**" p = true <-> exists rest, p = "docs/" ++ rest.
Proof.
  unfold glob_match.
  change (tokens "docs/**")
    with (map Lit (list_ascii_of_string "docs/") ++ [ DoubleStar ])%list.
  rewrite gmatch_literals. cbn [list_ascii_of_string string_of_list_ascii].
  split.
  - intros (rest & E & _). exists rest. exact E.
  - intros (rest & E). exists rest. split; [exact E|apply gmatch_double_star].
Qed.

(** The PR workflow is triggered by the pull requests whose base branch is
    master, and by no other pull request; for any other base branch none of
    its steps is set off. *)
Theorem pr_workflow_only_for_master (base : string) :
  (triggered (wf_on pr_workflow) (PullRequest base) = true <-> base = "master") /\
  (base <> "master" -> triggered_steps (PullRequest base) = []).
Proof.
  assert (T : triggered (wf_on pr_workflow) (PullRequest base) = true <-> base = "master").
  { cbn [triggered wf_on pr_workflow matches_any existsb]. rewrite orb_false_r.
    unfold glob_match.
    change (tokens "master") with (map Lit (list_ascii_of_string "master") ++ [])%list.
    rewrite gmatch_literals. cbn [list_ascii_of_string string_of_list_ascii].
    split.
    - intros (s' & -> & H). apply gmatch_end in H. subst s'. reflexivity.
    - intros ->. exists EmptyString. split; reflexivity. }
  split; [exact T|].
  intro Hne. unfold triggered_steps, workflows. cbn [flat_map].
  unfold steps_on.
  destruct (triggered (wf_on pr_workflow) (PullRequest base)).
  - exfalso. apply Hne, T. reflexivity.
  - reflexivity.
Qed.

Lemma pr_workflow_only_for_master_witness :
  triggered_steps (PullRequest "research-v2") = [].
Proof.
  refine (proj2 (pr_workflow_only_for_master "research-v2") _).
  discriminate.
Defined.

(** The status workflow is triggered by the pushes that change at least one
    path outside [docs/], and by no other push; such a push sets off the
    steps of lint-test and nothing else. *)
Theorem status_workflow_for_changes_outside_docs (changed : list string) :
  (triggered (wf_on status_workflow) (Push changed) = true <->
   exists p, In p changed /\ forall rest, p <> "docs/" ++ rest) /\
  ((exists p, In p changed /\ forall rest, p <> "docs/" ++ rest) ->
   triggered_steps (Push changed) = steps lint_test).
Proof.
  assert (T : triggered (wf_on status_workflow) (Push changed) = true <->
              exists p, In p changed /\ forall rest, p <> "docs/" ++ rest).
  { cbn [triggered wf_on status_workflow]. rewrite existsb_exists.
    split; intros (p & Hin & H); exists p; (split; [exact Hin|]).
    - intros rest E.
      assert (M : glob_match "docs/**" p = true)
        by (apply docs_pattern_iff; exists rest; exact E).
      cbn [matches_any existsb] in H. rewrite M in H. discriminate.
    - cbn [matches_any existsb]. rewrite orb_false_r.
      destruct (glob_match "docs/**" p) eqn:M; [|reflexivity].
      apply docs_pattern_iff in M as (rest & E). exfalso. exact (H rest E). }
  split; [exact T|].
  intro H. apply T in H.
  unfold triggered_steps, workflows. cbn [flat_map]. unfold steps_on.
  rewrite H. cbn [triggered wf_on pr_workflow].
  unfold all_steps. cbn [wf_jobs status_workflow flat_map].
  rewrite !List.app_nil_r. reflexivity.
Qed.

Lemma status_workflow_for_changes_outside_docs_witness :
  triggered_steps (Push [ "docs/index.rst"; "batchflow/research/domain.py" ])
  = steps lint_test.
Proof.
  refine (proj2 (status_workflow_for_changes_outside_docs
                   [ "docs/index.rst"; "batchflow/research/domain.py" ]) _).
  exists "batchflow/research/domain.py". split; [simpl; tauto|].
  intros rest E. discriminate E.
Defined.

End Triggers.

(** * The notebook's [update_domain] *)

Section UpdateDomain.
Import Research Notebook.
Local Open Scope list_scope.
Local Open Scope Z_scope.

Lemma first_max_none (results : DataFrame) :
  first_max results = None -> results = [].
Proof.
  destruct results as [|row rest]; [reflexivity|].
  simpl. destruct (first_max rest) as [best|]; [|discriminate].
  destruct (accuracy best <=? accuracy row); discriminate.
Qed.

Lemma first_max_in (results : DataFrame) :
  forall best, first_max results = Some best -> In best results.
Proof.
  induction results as [|row rest IH]; intros best H; [discriminate|].
  simpl in H. destruct (first_max rest) as [b|].
  - destruct (accuracy b <=? accuracy row); injection H as <-.
    + left; reflexivity.
    + right. apply IH. reflexivity.
  - injection H as <-. left; reflexivity.
Qed.

(** [first_max] finds the row whose accuracy is higher than that of every
    row before it and not lower than that of any row after it. *)
Lemma first_max_found (before after : DataFrame) (best : frame_row) :
  (forall row, In row before -> accuracy row < accuracy best) ->
  (forall row, In row after -> accuracy row <= accuracy best) ->
  first_max (before ++ best :: after) = Some best.
Proof.
  intros Hb Ha. induction before as [|r before IH]; cbn [List.app first_max].
  - destruct (first_max after) as [b|] eqn:E; [|reflexivity].
    apply first_max_in in E. specialize (Ha b E).
    apply Z.leb_le in Ha. rewrite Ha. reflexivity.
  - rewrite IH by (intros row Hrow; apply Hb; right; exact Hrow).
    assert (L : accuracy r < accuracy best) by (apply Hb; left; reflexivity).
    apply Z.leb_gt in L. rewrite L. reflexivity.
Qed.

(** A non-empty frame has such a row. *)
Lemma first_max_exists (results : DataFrame) :
  results <> [] ->
  exists before best after,
    results = before ++ best :: after /\
    (forall row, In row before -> accuracy row < accuracy best) /\
    (forall row, In row after -> accuracy row <= accuracy best).
Proof.
  induction results as [|row rest IH]; intro Hne; [contradiction|].
  destruct rest as [|r2 rest'].
  - exists [], row, []. split; [reflexivity|]. split; intros r [].
  - destruct IH as (before & best & after & E & Hb & Ha); [discriminate|].
    rewrite E. destruct (Z.le_gt_cases (accuracy best) (accuracy row)) as [L|L].
    + exists [], row, (before ++ best :: after).
      split; [reflexivity|]. split; [intros r []|].
      intros r Hr. apply in_app_or in Hr as [Hr|[<-|Hr]].
      * specialize (Hb r Hr). lia.
      * exact L.
      * specialize (Ha r Hr). lia.
    + exists (row :: before), best, after.
      split; [reflexivity|]. split; [|exact Ha].
      intros r [<-|Hr]; [exact L|apply Hb, Hr].
Qed.



(** On a frame whose labels are not the positions the function keeps
    another model: with the labels 1 and 0, the row of highest accuracy is
    the first, its label 1 is read as a position, and the model of the
    second row is returned. *)
Example update_domain_on_permuted_labels :
  update_domain
    [ {| label := 1; model := VName "VGG7"; accuracy := 5210 |};
      {| label := 0; model := VName "VGG16"; accuracy := 4012 |} ]
  = Returned (retrain (VName "VGG16")).
Proof. reflexivity. Qed.

(** With a label that is no position of the frame, [IndexError]. *)
Example update_domain_label_out_of_bounds :
  update_domain [ {| label := 7; model := VName "VGG7"; accuracy := 5210 |} ]
  = Raised IndexError.
Proof. reflexivity. Qed.

End UpdateDomain.
